(** * Harbor: the database-backed security context
      (src/common/security/local/context.go)

    A shallow embedding of [SecurityContext] and of its permission
    predicates.  The methods of the Go file are translated one by one; the
    packages they call into ([promgr], [dao], [group], [common], [log]) are
    not part of the file and are taken as parameters.  The file only reads
    from its collaborators, so within one call a collaborator is a function
    from its arguments to its Go results (value and error).  Every call
    that leaves the file is recorded, with its arguments and its result, in
    a trace, so that "which collaborator was consulted" is a statement
    about a list. *)

From Stdlib Require Import ZArith List String Bool Lia.
Import ListNotations.

Local Open Scope Z_scope.
Local Open Scope string_scope.

Set Implicit Arguments.

(** ** Go values *)

Module Go.

(** [error]: [None] is the nil error, [Some msg] a failure. *)
Definition error : Type := option string.

(** A slice is either the nil slice or a (possibly empty) sequence of
    elements; [[]int{}] and [nil] are different values of equal length. *)
Definition slice (A : Type) : Type := option (list A).

Definition nilSlice {A : Type} : slice A := None.
Definition emptySlice {A : Type} : slice A := Some [].

Definition elems {A : Type} (s : slice A) : list A :=
  match s with
  | Some l => l
  | None => []
  end.

Definition len {A : Type} (s : slice A) : nat := List.length (elems s).

Definition append {A : Type} (s : slice A) (x : A) : slice A :=
  Some (elems s ++ [x])%list.

(** The dynamic value held by an [interface{}]: the project manager
    accepts an int64 identifier or a name, any other type may be passed. *)
Inductive dyn : Type :=
| DInt64 (n : Z)
| DString (s : string)
| DOther (typeName : string).

(** [interface{}]: [None] is the nil interface. *)
Definition iface : Type := option dyn.

Definition isNil (v : iface) : bool :=
  match v with
  | None => true
  | Some _ => false
  end.

(** How a call ends: with its results, or in a run-time panic (here only
    the dereference of a nil pointer). *)
Inductive Outcome (A : Type) : Type :=
| Done (a : A)
| Panic.
Arguments Panic {A}.

End Go.
Import Go.

Section Local.

(** [models.UserGroup] and the query condition built by the [group]
    package are declared outside this file. *)
Variables UserGroup GroupDNCondition : Type.

(** ** The [models] records, with the fields the file reads or writes *)

Record User : Type := mkUser {
  UserID : Z;
  Username : string;
  HasAdminRole : bool;
  GroupList : slice UserGroup
}.

Record Project : Type := mkProject {
  ProjectID : Z;
  Name : string
}.

Record Role : Type := mkRole {
  RoleCode : string
}.

Record MemberQuery : Type := mkMemberQuery {
  MemberQuery_Name : string;
  MemberQuery_GroupList : slice UserGroup
}.

Record ProjectQueryParam : Type := mkProjectQueryParam {
  Member : option MemberQuery
}.

Record ProjectQueryResult : Type := mkProjectQueryResult {
  Projects : slice Project
}.

(** [models.User{Username: name}]: every other field has its zero value. *)
Definition userQuery (name : string) : User :=
  {| UserID := 0; Username := name; HasAdminRole := false;
     GroupList := nilSlice |}.

(** ** Collaborators *)

(** The [promgr.ProjectManager] interface, restricted to the methods the
    file calls.  A Go call returns both components, the value and the
    error. *)
Record ProjectManager : Type := mkProjectManager {
  IsPublic : iface -> bool * error;
  Get : iface -> option Project * error;
  List : option ProjectQueryParam -> option ProjectQueryResult * error
}.

(** The package-level functions and constants of [common], [dao] and
    [group]. *)
Record Env : Type := mkEnv {
  RoleProjectAdmin : Z;
  RoleDeveloper : Z;
  RoleGuest : Z;
  UserMember : string;
  dao_GetUser : User -> option User * error;
  dao_GetUserProjectRoles : Z -> Z -> string -> slice Role * error;
  dao_GetRolesByLDAPGroup : Z -> GroupDNCondition -> slice Z * error;
  group_GetGroupDNQueryCondition : slice UserGroup -> GroupDNCondition
}.

(** ** Traces *)

(** A recorded call carries its arguments and its answer; a log entry
    carries its level and the format of the message. *)

Inductive LogLevel : Type := LogDebug | LogError.

Inductive Event : Type :=
| EvIsPublic (projectIDOrName : iface) (r : bool * error)
| EvGet (projectIDOrName : iface) (r : option Project * error)
| EvList (query : option ProjectQueryParam)
         (r : option ProjectQueryResult * error)
| EvGetUser (query : User) (r : option User * error)
| EvGetUserProjectRoles (userID projectID : Z) (entityType : string)
                        (r : slice Role * error)
| EvGetGroupDNQueryCondition (groups : slice UserGroup)
                             (r : GroupDNCondition)
| EvGetRolesByLDAPGroup (projectID : Z) (cond : GroupDNCondition)
                        (r : slice Z * error)
| EvLog (level : LogLevel) (format : string).

(** A computation: its outcome and the calls it made, oldest first. *)
Definition M (A : Type) : Type := (Outcome A * list Event)%type.

Definition ret {A : Type} (a : A) : M A := (Done a, []).

Definition bind {A B : Type} (m : M A) (k : A -> M B) : M B :=
  match fst m with
  | Done a => (fst (k a), (snd m ++ snd (k a))%list)
  | Panic => (Panic, snd m)
  end.

Definition emit (e : Event) : M unit := (Done tt, [e]).

Definition panic {A : Type} : M A := (Panic, []).

Definition retval {A : Type} (m : M A) : Outcome A := fst m.
Definition trace {A : Type} (m : M A) : list Event := snd m.

Notation "x <- m ;; k" := (bind m (fun x => k))
  (at level 61, m at next level, right associativity).
Notation "' p <- m ;; k" := (bind m (fun x => let 'p := x in k))
  (at level 61, p pattern, m at next level, right associativity).
Notation "m ;;; k" := (bind m (fun _ => k))
  (at level 61, right associativity).

(** A call that leaves the file: the collaborator's answer, recorded. *)
Definition pm_IsPublic (pm : ProjectManager) (v : iface) : M (bool * error) :=
  let r := IsPublic pm v in (Done r, [EvIsPublic v r]).

Definition pm_Get (pm : ProjectManager) (v : iface)
  : M (option Project * error) :=
  let r := Get pm v in (Done r, [EvGet v r]).

Definition pm_List (pm : ProjectManager) (q : option ProjectQueryParam)
  : M (option ProjectQueryResult * error) :=
  let r := List pm q in (Done r, [EvList q r]).

Definition log_Errorf (format : string) : M unit :=
  emit (EvLog LogError format).

Definition log_Debugf (format : string) : M unit :=
  emit (EvLog LogDebug format).

(** ** The security context *)

(** [user] is the pointer of the Go struct, [None] when it is nil.  [pm] is
    taken to be a project manager that is present: a nil interface value,
    which [NewSecurityContext] would store as it is and on which every
    [s.pm] call panics, is outside this model. *)
Record SecurityContext : Type := mkSecurityContext {
  user : option User;
  pm : ProjectManager
}.

Definition NewSecurityContext (user : option User) (pm : ProjectManager)
  : SecurityContext :=
  {| user := user; pm := pm |}.

Definition IsAuthenticated (s : SecurityContext) : bool :=
  match user s with
  | Some _ => true
  | None => false
  end.

Definition GetUsername (s : SecurityContext) : string :=
  if negb (IsAuthenticated s) then ""
  else match user s with
       | Some u => Username u
       | None => ""
       end.

Definition IsSysAdmin (s : SecurityContext) : bool :=
  if negb (IsAuthenticated s) then false
  else match user s with
       | Some u => HasAdminRole u
       | None => false
       end.

Definition IsSolutionUser (s : SecurityContext) : bool := false.

Variable E : Env.

Definition dao_GetUser' (q : User) : M (option User * error) :=
  let r := dao_GetUser E q in (Done r, [EvGetUser q r]).

Definition dao_GetUserProjectRoles' (userID projectID : Z)
           (entityType : string) : M (slice Role * error) :=
  let r := dao_GetUserProjectRoles E userID projectID entityType in
  (Done r, [EvGetUserProjectRoles userID projectID entityType r]).

Definition dao_GetRolesByLDAPGroup' (projectID : Z) (c : GroupDNCondition)
  : M (slice Z * error) :=
  let r := dao_GetRolesByLDAPGroup E projectID c in
  (Done r, [EvGetRolesByLDAPGroup projectID c r]).

Definition group_GetGroupDNQueryCondition' (groups : slice UserGroup)
  : M GroupDNCondition :=
  let r := group_GetGroupDNQueryCondition E groups in
  (Done r, [EvGetGroupDNQueryCondition groups r]).

(** [GetRolesByGroup]: the role the user's LDAP groups have in the
    project. *)
Definition GetRolesByGroup (s : SecurityContext) (projectIDOrName : iface)
  : M (slice Z) :=
  let roles : slice Z := nilSlice in
  let user := user s in
  '(project, err) <- pm_Get (pm s) projectIDOrName ;;
  match err, project, user with
  | None, Some project, Some user =>
      if (len (GroupList user) =? 0)%nat then ret roles
      else
        groupDNConditions <-
          group_GetGroupDNQueryCondition' (GroupList user) ;;
        '(roles, err) <-
          dao_GetRolesByLDAPGroup' (ProjectID project) groupDNConditions ;;
        match err with
        | Some _ => ret nilSlice
        | None => ret roles
        end
  | _, _, _ => ret roles
  end.

(** The body of the loop over the role list of [GetProjectRoles]: a
    switch on the role code, with no default case. *)
Definition appendRole (roles : slice Z) (role : Role) : slice Z :=
  if String.eqb (RoleCode role) "MDRWS" then
    append roles (RoleProjectAdmin E)
  else if String.eqb (RoleCode role) "RWS" then
    append roles (RoleDeveloper E)
  else if String.eqb (RoleCode role) "RS" then
    append roles (RoleGuest E)
  else roles.

Definition directRoles (roleList : slice Role) : slice Z :=
  fold_left appendRole (elems roleList) emptySlice.

Definition GetProjectRoles (s : SecurityContext) (projectIDOrName : iface)
  : M (slice Z) :=
  if negb (IsAuthenticated s) || isNil projectIDOrName then ret emptySlice
  else
    let roles : slice Z := emptySlice in
    '(user, err) <- dao_GetUser' (userQuery (GetUsername s)) ;;
    match err with
    | Some _ => log_Errorf "failed to get user %s: %v" ;;; ret roles
    | None =>
    match user with
    | None => log_Debugf "user %s not found" ;;; ret roles
    | Some user =>
    '(project, err) <- pm_Get (pm s) projectIDOrName ;;
    match err with
    | Some _ => log_Errorf "failed to get project %v: %v" ;;; ret roles
    | None =>
    match project with
    | None => log_Errorf "project %v not found" ;;; ret roles
    | Some project =>
    '(roleList, err) <-
      dao_GetUserProjectRoles' (UserID user) (ProjectID project)
                               (UserMember E) ;;
    match err with
    | Some _ =>
        log_Errorf "failed to get roles of user %d to project %d: %v" ;;;
        ret roles
    | None =>
    let roles := fold_left appendRole (elems roleList) roles in
    if negb (len roles =? 0)%nat then ret roles
    else GetRolesByGroup s projectIDOrName
    end end end end end.

(** The two loops over the resolved roles, each returning at the first
    role its switch accepts. *)
Definition grantsWrite (role : Z) : bool :=
  (role =? RoleProjectAdmin E)%Z || (role =? RoleDeveloper E)%Z.

Definition grantsAll (role : Z) : bool :=
  (role =? RoleProjectAdmin E)%Z.

Definition HasReadPerm (s : SecurityContext) (projectIDOrName : iface)
  : M bool :=
  '(public, err) <- pm_IsPublic (pm s) projectIDOrName ;;
  match err with
  | Some _ =>
      log_Errorf "failed to check the public of project %v: %v" ;;;
      ret false
  | None =>
      if public then ret true
      else if negb (IsAuthenticated s) then ret false
      else if IsSysAdmin s then ret true
      else
        roles <- GetProjectRoles s projectIDOrName ;;
        ret (0 <? len roles)%nat
  end.

Definition HasWritePerm (s : SecurityContext) (projectIDOrName : iface)
  : M bool :=
  if negb (IsAuthenticated s) then ret false
  else if IsSysAdmin s then ret true
  else
    roles <- GetProjectRoles s projectIDOrName ;;
    ret (existsb grantsWrite (elems roles)).

Definition HasAllPerm (s : SecurityContext) (projectIDOrName : iface)
  : M bool :=
  if negb (IsAuthenticated s) then ret false
  else if IsSysAdmin s then ret true
  else
    roles <- GetProjectRoles s projectIDOrName ;;
    ret (existsb grantsAll (elems roles)).

(** [GetMyProjects]: the arguments of [List] are evaluated first, and
    [s.user.GroupList] dereferences [s.user] with no guard. *)
Definition GetMyProjects (s : SecurityContext)
  : M (slice Project * error) :=
  let name := GetUsername s in
  match user s with
  | None => panic
  | Some u =>
      '(result, err) <-
        pm_List (pm s)
          (Some {| Member := Some {| MemberQuery_Name := name;
                                     MemberQuery_GroupList := GroupList u |}
                |}) ;;
      match err with
      | Some e => ret (nilSlice, Some e)
      | None =>
          match result with
          | None => panic
          | Some result => ret (Projects result, None)
          end
      end
  end.

(** ** Vocabulary of the specification *)

Definition isErr (err : error) : bool :=
  match err with
  | Some _ => true
  | None => false
  end.

Definition isAbsent {A : Type} (p : option A) : bool :=
  match p with
  | Some _ => false
  | None => true
  end.

(** The error paths of the specification, read off a recorded call:
    public-flag lookup failure, user-store error or user not found,
    project lookup error or miss, role-query error, group-role-query
    error (and a failed listing). *)
Definition failedCall (ev : Event) : bool :=
  match ev with
  | EvIsPublic _ r => isErr (snd r)
  | EvGet _ r => isErr (snd r) || isAbsent (fst r)
  | EvList _ r => isErr (snd r)
  | EvGetUser _ r => isErr (snd r) || isAbsent (fst r)
  | EvGetUserProjectRoles _ _ _ r => isErr (snd r)
  | EvGetGroupDNQueryCondition _ _ => false
  | EvGetRolesByLDAPGroup _ _ r => isErr (snd r)
  | EvLog _ _ => false
  end.

(** The calls only the group-inherited path makes. *)
Definition groupPathCall (ev : Event) : bool :=
  match ev with
  | EvGetGroupDNQueryCondition _ _ => true
  | EvGetRolesByLDAPGroup _ _ _ => true
  | _ => false
  end.

(** The role-code table of the specification: "MDRWS" is ProjectAdmin,
    "RWS" is Developer, "RS" is Guest, nothing else is a role. *)
Definition RoleCodeTable (code : string) : option Z :=
  if String.eqb code "MDRWS" then Some (RoleProjectAdmin E)
  else if String.eqb code "RWS" then Some (RoleDeveloper E)
  else if String.eqb code "RS" then Some (RoleGuest E)
  else None.

Definition rolesOfCode (role : Role) : list Z :=
  match RoleCodeTable (RoleCode role) with
  | Some r => [r]
  | None => []
  end.

(** The three role constants name three different roles. *)
Definition RolesDistinct : Prop :=
  RoleProjectAdmin E <> RoleDeveloper E /\
  RoleGuest E <> RoleProjectAdmin E /\
  RoleGuest E <> RoleDeveloper E.

(** ** Kinds of recorded calls *)

Definition isLog (ev : Event) : bool :=
  match ev with
  | EvLog _ _ => true
  | _ => false
  end.

(** [pm.IsPublic]. *)
Definition publicFlagCall (ev : Event) : bool :=
  match ev with
  | EvIsPublic _ _ => true
  | _ => false
  end.

(** [pm.Get]. *)
Definition projectLookup (ev : Event) : bool :=
  match ev with
  | EvGet _ _ => true
  | _ => false
  end.

(** [pm.List]. *)
Definition listCall (ev : Event) : bool :=
  match ev with
  | EvList _ _ => true
  | _ => false
  end.

(** The functions of the [dao] and [group] packages. *)
Definition storeCall (ev : Event) : bool :=
  match ev with
  | EvGetUser _ _ => true
  | EvGetUserProjectRoles _ _ _ _ => true
  | EvGetGroupDNQueryCondition _ _ => true
  | EvGetRolesByLDAPGroup _ _ _ => true
  | _ => false
  end.

(** The calls of a trace, its log entries left out. *)
Definition calls (t : list Event) : list Event :=
  filter (fun ev => negb (isLog ev)) t.

(** A role code the switch of [GetProjectRoles] has a case for. *)
Definition recognized (role : Role) : bool :=
  String.eqb (RoleCode role) "MDRWS" || String.eqb (RoleCode role) "RWS"
  || String.eqb (RoleCode role) "RS".

End Local.

Arguments EvIsPublic {UserGroup GroupDNCondition}.
Arguments EvGet {UserGroup GroupDNCondition}.
Arguments EvList {UserGroup GroupDNCondition}.
Arguments EvGetUser {UserGroup GroupDNCondition}.
Arguments EvGetUserProjectRoles {UserGroup GroupDNCondition}.
Arguments EvGetGroupDNQueryCondition {UserGroup GroupDNCondition}.
Arguments EvGetRolesByLDAPGroup {UserGroup GroupDNCondition}.
Arguments EvLog {UserGroup GroupDNCondition}.
Arguments ret {UserGroup GroupDNCondition A}.
Arguments panic {UserGroup GroupDNCondition A}.
Arguments GetMyProjects {UserGroup} GroupDNCondition s.
Arguments failedCall {UserGroup GroupDNCondition} ev.
Arguments groupPathCall {UserGroup GroupDNCondition} ev.
Arguments isLog {UserGroup GroupDNCondition} ev.
Arguments publicFlagCall {UserGroup GroupDNCondition} ev.
Arguments projectLookup {UserGroup GroupDNCondition} ev.
Arguments listCall {UserGroup GroupDNCondition} ev.
Arguments storeCall {UserGroup GroupDNCondition} ev.
Arguments calls {UserGroup GroupDNCondition} t.

(** ** Concrete stores, used to run the definitions *)

Module Sample.

(** Groups are named by their DN, the condition is a string. *)
Definition UG : Type := string.
Definition GC : Type := string.

Definition library : Project := {| ProjectID := 7; Name := "library" |}.

Definition alice : User UG :=
  {| UserID := 5; Username := "alice"; HasAdminRole := false;
     GroupList := Some ["cn=dev,dc=example"] |}.

Definition root : User UG :=
  {| UserID := 1; Username := "admin"; HasAdminRole := true;
     GroupList := nilSlice |}.

(** A project manager that knows the private project 7 only. *)
Definition pmPrivate : ProjectManager UG :=
  {| IsPublic := fun _ => (false, None);
     Get := fun v =>
              match v with
              | Some (DInt64 7) => (Some library, None)
              | _ => (None, None)
              end;
     List := fun _ => (Some {| Projects := Some [library] |}, None) |}.

(** A project manager for which every project is public. *)
Definition pmPublic : ProjectManager UG :=
  {| IsPublic := fun _ => (true, None);
     Get := Get pmPrivate;
     List := List pmPrivate |}.

(** A project manager whose store is down. *)
Definition pmDown : ProjectManager UG :=
  {| IsPublic := fun _ => (false, Some "connection refused");
     Get := fun _ => (None, Some "connection refused");
     List := fun _ => (None, Some "connection refused") |}.

(** A project manager that answers the public flag with an error and
    still resolves project 7. *)
Definition pmFlagDown : ProjectManager UG :=
  {| IsPublic := fun _ => (false, Some "connection refused");
     Get := Get pmPrivate;
     List := List pmPrivate |}.

(** The stores: [directCodes] are the role codes of the direct
    assignment of any user to any project, [groupAnswer] what the
    group-role query returns. *)
Definition env (directCodes : list string) (groupAnswer : slice Z * error)
  : Env UG GC :=
  {| RoleProjectAdmin := 1;
     RoleDeveloper := 2;
     RoleGuest := 3;
     UserMember := "u";
     dao_GetUser := fun q =>
       (Some {| UserID := 5; Username := Username q;
                HasAdminRole := false; GroupList := nilSlice |}, None);
     dao_GetUserProjectRoles := fun _ _ _ =>
       (Some (map (fun c => {| RoleCode := c |}) directCodes), None);
     dao_GetRolesByLDAPGroup := fun _ _ => groupAnswer;
     group_GetGroupDNQueryCondition := fun _ => "'cn=dev,dc=example'" |}.

Definition p7 : iface := Some (DInt64 7).
Definition p9 : iface := Some (DInt64 9).

Definition anonymous (pm : ProjectManager UG) : SecurityContext UG :=
  NewSecurityContext None pm.
Definition asAlice (pm : ProjectManager UG) : SecurityContext UG :=
  NewSecurityContext (Some alice) pm.
Definition asRoot (pm : ProjectManager UG) : SecurityContext UG :=
  NewSecurityContext (Some root) pm.

End Sample.

(** ** The scenarios of the specification, run on the sample stores *)

Import Sample.

Example scenario_anonymous_public :
  retval (HasReadPerm (env [] (emptySlice, None)) (anonymous pmPublic) p7)
  = Done true.
Proof. reflexivity. Qed.

Example scenario_no_role :
  retval (HasReadPerm (env [] (emptySlice, None)) (asAlice pmPrivate) p7)
  = Done false /\
  retval (HasWritePerm (env [] (emptySlice, None)) (asAlice pmPrivate) p7)
  = Done false.
Proof. split; reflexivity. Qed.

Example scenario_developer :
  let E := env ["RWS"] (emptySlice, None) in
  retval (GetProjectRoles E (asAlice pmPrivate) p7) = Done (Some [2]) /\
  retval (HasWritePerm E (asAlice pmPrivate) p7) = Done true /\
  retval (HasAllPerm E (asAlice pmPrivate) p7) = Done false.
Proof. repeat split; reflexivity. Qed.

Example scenario_project_admin :
  retval (HasAllPerm (env ["MDRWS"] (emptySlice, None)) (asAlice pmPrivate) p7)
  = Done true.
Proof. reflexivity. Qed.

Example scenario_group_guest :
  let E := env [] (Some [3], None) in
  retval (GetProjectRoles E (asAlice pmPrivate) p7) = Done (Some [3]) /\
  retval (HasReadPerm E (asAlice pmPrivate) p7) = Done true /\
  retval (HasWritePerm E (asAlice pmPrivate) p7) = Done false.
Proof. repeat split; reflexivity. Qed.

Example scenario_admin_missing_project :
  let E := env [] (emptySlice, None) in
  retval (HasReadPerm E (asRoot pmPrivate) p9) = Done true /\
  retval (HasWritePerm E (asRoot pmPrivate) p9) = Done true /\
  retval (HasAllPerm E (asRoot pmPrivate) p9) = Done true.
Proof. repeat split; reflexivity. Qed.

(** ** Properties *)

Section Properties.

Variables UserGroup GroupDNCondition : Type.
Variable E : Env UserGroup GroupDNCondition.

(** Case analysis on whatever a [match] of the goal or of a hypothesis
    is stuck on. *)
Ltac break_match :=
  match goal with
  | |- context [match ?x with _ => _ end] => destruct x eqn:?
  | H : context [match ?x with _ => _ end] |- _ => destruct x eqn:?
  end.

Ltac unfold_calls :=
  unfold HasReadPerm, HasWritePerm, HasAllPerm, GetProjectRoles,
    GetRolesByGroup, GetMyProjects, pm_IsPublic, pm_Get, pm_List,
    dao_GetUser', dao_GetUserProjectRoles', dao_GetRolesByLDAPGroup',
    group_GetGroupDNQueryCondition', log_Errorf, log_Debugf, emit,
    bind, ret, panic, retval, trace,
    IsSysAdmin, GetUsername, IsAuthenticated in *.

Ltac inv_done :=
  repeat match goal with
         | H : Done _ = Done _ |- _ => inversion H; subst; clear H
         end.

Ltac run := unfold_calls; simpl in *;
  repeat (break_match; simpl in *; try congruence);
  inv_done; try reflexivity.

(** *** With a project manager present, the runs end with a value *)

Lemma GetRolesByGroup_done (s : SecurityContext UserGroup) (v : iface) :
  exists roles, retval (GetRolesByGroup E s v) = Done roles.
Proof. run; eauto. Qed.

Lemma GetProjectRoles_done (s : SecurityContext UserGroup) (v : iface) :
  exists roles, retval (GetProjectRoles E s v) = Done roles.
Proof. run; eauto. Qed.

Lemma HasReadPerm_done (s : SecurityContext UserGroup) (v : iface) :
  exists b, retval (HasReadPerm E s v) = Done b.
Proof. run; eauto. Qed.

Lemma HasWritePerm_done (s : SecurityContext UserGroup) (v : iface) :
  exists b, retval (HasWritePerm E s v) = Done b.
Proof. run; eauto. Qed.

Lemma HasAllPerm_done (s : SecurityContext UserGroup) (v : iface) :
  exists b, retval (HasAllPerm E s v) = Done b.
Proof. run; eauto. Qed.

(** *** Fail-closed role resolution *)

(** A failed call during role resolution leaves no role. *)
Lemma GetRolesByGroup_failed (s : SecurityContext UserGroup) (v : iface) :
  existsb failedCall (trace (GetRolesByGroup E s v)) = true ->
  exists roles,
    retval (GetRolesByGroup E s v) = Done roles /\ elems roles = [].
Proof. run; eauto. Qed.

Lemma GetProjectRoles_failed (s : SecurityContext UserGroup) (v : iface) :
  existsb failedCall (trace (GetProjectRoles E s v)) = true ->
  exists roles,
    retval (GetProjectRoles E s v) = Done roles /\ elems roles = [].
Proof. run; eauto. Qed.

(** *** The loop over the role codes *)

Lemma appendRole_rolesOfCode (acc : list Z) (role : Role) :
  appendRole E (Some acc) role = Some (acc ++ rolesOfCode E role)%list.
Proof.
  unfold appendRole, rolesOfCode, RoleCodeTable, append.
  destruct (String.eqb (RoleCode role) "MDRWS"); [reflexivity |].
  destruct (String.eqb (RoleCode role) "RWS"); [reflexivity |].
  destruct (String.eqb (RoleCode role) "RS"); [reflexivity |].
  now rewrite app_nil_r.
Qed.

Lemma fold_appendRole (l : list Role) : forall acc : list Z,
  fold_left (appendRole E) l (Some acc)
  = Some (acc ++ flat_map (rolesOfCode E) l)%list.
Proof.
  induction l as [| role l IH]; intros acc; simpl.
  - now rewrite app_nil_r.
  - rewrite appendRole_rolesOfCode, IH. now rewrite <- app_assoc.
Qed.

Lemma directRoles_flat_map (roleList : slice Role) :
  directRoles E roleList = Some (flat_map (rolesOfCode E) (elems roleList)).
Proof. unfold directRoles, emptySlice. now rewrite fold_appendRole. Qed.

(** *** What an authenticated, non-admin principal is granted *)

Section Member.

Variables (s : SecurityContext UserGroup) (v : iface) (roles : slice Z).
Hypothesis authenticated : IsAuthenticated s = true.
Hypothesis not_admin : IsSysAdmin s = false.
Hypothesis resolved : retval (GetProjectRoles E s v) = Done roles.

Lemma HasWritePerm_member :
  retval (HasWritePerm E s v) = Done (existsb (grantsWrite E) (elems roles)).
Proof.
  revert resolved. unfold HasWritePerm, bind, ret, retval.
  rewrite authenticated, not_admin. simpl. now intros ->.
Qed.

Lemma HasAllPerm_member :
  retval (HasAllPerm E s v) = Done (existsb (grantsAll E) (elems roles)).
Proof.
  revert resolved. unfold HasAllPerm, bind, ret, retval.
  rewrite authenticated, not_admin. simpl. now intros ->.
Qed.

Lemma HasReadPerm_member :
  snd (IsPublic (pm s) v) = None ->
  retval (HasReadPerm E s v)
  = Done (fst (IsPublic (pm s) v) || (0 <? len roles)%nat).
Proof.
  revert resolved. unfold HasReadPerm, pm_IsPublic, bind, ret, retval.
  rewrite authenticated, not_admin. simpl.
  destruct (IsPublic (pm s) v) as [public err]. simpl.
  intros Hr ->. destruct public; simpl; [reflexivity | now rewrite Hr].
Qed.

End Member.

(** *** The permission predicates *)


(** C2. A project whose public flag resolves to true without error is
    readable in every context; the decision is taken on the public flag
    alone, before any authentication, admin or role check. *)
Theorem HasReadPerm_public (s : SecurityContext UserGroup) (v : iface) :
  IsPublic (pm s) v = (true, None) ->
  HasReadPerm E s v = (Done true, [EvIsPublic v (true, None)]).
Proof.
  intros H. unfold HasReadPerm, pm_IsPublic, bind, ret. simpl.
  now rewrite H.
Qed.

(** C3 (amended). For a system administrator HasWritePerm and HasAllPerm
    return true for every project identifier without any lookup, and
    HasReadPerm returns true for every project identifier whose
    public-flag lookup returns without error, a lookup miss included: the
    project is never resolved and no role is looked up. *)
Theorem sysadmin_override (s : SecurityContext UserGroup) (v : iface) :
  IsSysAdmin s = true ->
  HasWritePerm E s v = (Done true, []) /\
  HasAllPerm E s v = (Done true, []) /\
  (snd (IsPublic (pm s) v) = None ->
   HasReadPerm E s v = (Done true, [EvIsPublic v (IsPublic (pm s) v)])).
Proof.
  intros Hadmin.
  assert (Hauth : IsAuthenticated s = true).
  { revert Hadmin. unfold IsSysAdmin.
    now destruct (IsAuthenticated s). }
  repeat split.
  - unfold HasWritePerm. now rewrite Hauth, Hadmin.
  - unfold HasAllPerm. now rewrite Hauth, Hadmin.
  - unfold HasReadPerm, pm_IsPublic, bind, ret. simpl.
    rewrite Hauth, Hadmin.
    destruct (IsPublic (pm s) v) as [public err]. simpl.
    intros ->. now destruct public.
Qed.

(** C4. With no principal, HasWritePerm and HasAllPerm return false and
    GetProjectRoles returns the empty set for every project identifier
    (no collaborator is asked), GetUsername returns the empty string and
    IsSysAdmin returns false. *)
Theorem unauthenticated_has_nothing
        (s : SecurityContext UserGroup) (v : iface) :
  IsAuthenticated s = false ->
  HasWritePerm E s v = (Done false, []) /\
  HasAllPerm E s v = (Done false, []) /\
  GetProjectRoles E s v = (Done emptySlice, []) /\
  GetUsername s = "" /\
  IsSysAdmin s = false.
Proof.
  intros Hanon.
  unfold HasWritePerm, HasAllPerm, GetProjectRoles, GetUsername, IsSysAdmin.
  rewrite Hanon. simpl. repeat split.
Qed.

(** C5 (amended). For an authenticated principal who is not a system
    administrator: if the resolved role set contains ProjectAdmin, both
    HasWritePerm and HasAllPerm return true; if it is not empty and holds
    nothing but Guest, both return false, and HasReadPerm returns true
    provided the public-flag lookup returns without error; if it contains
    Developer and not ProjectAdmin, HasWritePerm is true and HasAllPerm
    false. *)
Theorem role_implication
        (s : SecurityContext UserGroup) (v : iface) (roles : slice Z) :
  IsAuthenticated s = true ->
  IsSysAdmin s = false ->
  retval (GetProjectRoles E s v) = Done roles ->
  (In (RoleProjectAdmin E) (elems roles) ->
   retval (HasWritePerm E s v) = Done true /\
   retval (HasAllPerm E s v) = Done true) /\
  (RolesDistinct E ->
   elems roles <> [] ->
   (forall r, In r (elems roles) -> r = RoleGuest E) ->
   retval (HasWritePerm E s v) = Done false /\
   retval (HasAllPerm E s v) = Done false /\
   (snd (IsPublic (pm s) v) = None ->
    retval (HasReadPerm E s v) = Done true)) /\
  (In (RoleDeveloper E) (elems roles) ->
   ~ In (RoleProjectAdmin E) (elems roles) ->
   retval (HasWritePerm E s v) = Done true /\
   retval (HasAllPerm E s v) = Done false).
Proof.
  intros Hauth Hadmin Hroles.
  rewrite (@HasWritePerm_member s v roles Hauth Hadmin Hroles).
  rewrite (@HasAllPerm_member s v roles Hauth Hadmin Hroles).
  split; [| split].
  - intros Hin. split; f_equal; apply existsb_exists;
      exists (RoleProjectAdmin E); split; trivial;
      unfold grantsWrite, grantsAll; now rewrite Z.eqb_refl.
  - intros (_ & Hga & Hgd) Hne Honly. repeat split.
    + f_equal. apply not_true_is_false. intros Hex.
      apply existsb_exists in Hex. destruct Hex as (r & Hin & Hg).
      apply Honly in Hin. subst r. unfold grantsWrite in Hg.
      apply orb_true_iff in Hg. destruct Hg as [Hg | Hg];
        apply Z.eqb_eq in Hg; contradiction.
    + f_equal. apply not_true_is_false. intros Hex.
      apply existsb_exists in Hex. destruct Hex as (r & Hin & Hg).
      apply Honly in Hin. subst r. unfold grantsAll in Hg.
      apply Z.eqb_eq in Hg. contradiction.
    + intros Hpub.
      rewrite (@HasReadPerm_member s v roles Hauth Hadmin Hroles Hpub).
      f_equal. apply orb_true_iff. right. unfold len.
      destruct (elems roles); [contradiction | reflexivity].
  - intros Hin Hnot. split; f_equal.
    + apply existsb_exists. exists (RoleDeveloper E). split; trivial.
      unfold grantsWrite. rewrite Z.eqb_refl. apply orb_true_r.
    + apply not_true_is_false. intros Hex.
      apply existsb_exists in Hex. destruct Hex as (r & Hr & Hg).
      unfold grantsAll in Hg. apply Z.eqb_eq in Hg. now subst r.
Qed.

(** *** Role resolution *)

(** The run of GetProjectRoles once the principal, the user record, the
    project and the direct role list are all resolved. *)
Lemma GetProjectRoles_resolved
      (s : SecurityContext UserGroup) (v : iface)
      (u usr : User UserGroup) (project : Project) (roleList : slice Role) :
  user s = Some u ->
  isNil v = false ->
  dao_GetUser E (userQuery UserGroup (Username u)) = (Some usr, None) ->
  Get (pm s) v = (Some project, None) ->
  dao_GetUserProjectRoles E (UserID usr) (ProjectID project) (UserMember E)
  = (roleList, None) ->
  GetProjectRoles E s v
  = bind (Done tt,
          [EvGetUser (userQuery UserGroup (Username u)) (Some usr, None);
           EvGet v (Some project, None);
           EvGetUserProjectRoles (UserID usr) (ProjectID project)
                                 (UserMember E) (roleList, None)])
         (fun _ => if negb (len (directRoles E roleList) =? 0)%nat
                   then ret (directRoles E roleList)
                   else GetRolesByGroup E s v).
Proof.
  intros Hu Hv Husr Hprj Hroles.
  unfold GetProjectRoles, dao_GetUser', pm_Get, dao_GetUserProjectRoles',
    GetUsername, IsAuthenticated, bind.
  rewrite Hu, Hv. simpl. rewrite Husr. simpl. rewrite Hprj. simpl.
  rewrite Hroles. simpl. fold (directRoles E roleList).
  now destruct (len (directRoles E roleList) =? 0)%nat.
Qed.

(** C6. When the principal, the user record and the project resolve and
    the direct role query succeeds: if the direct assignments yield at
    least one recognized role, GetProjectRoles returns exactly that set
    after three calls (user, project, direct roles) and the group path is
    not entered; the group path runs only when the direct set is empty,
    and its answer is then the result. *)
Theorem direct_roles_shadow_group_roles
        (s : SecurityContext UserGroup) (v : iface)
        (u usr : User UserGroup) (project : Project)
        (roleList : slice Role) :
  user s = Some u ->
  isNil v = false ->
  dao_GetUser E (userQuery UserGroup (Username u)) = (Some usr, None) ->
  Get (pm s) v = (Some project, None) ->
  dao_GetUserProjectRoles E (UserID usr) (ProjectID project) (UserMember E)
  = (roleList, None) ->
  let asked :=
    [EvGetUser (userQuery UserGroup (Username u)) (Some usr, None);
     EvGet v (Some project, None);
     EvGetUserProjectRoles (UserID usr) (ProjectID project)
                           (UserMember E) (roleList, None)] in
  (len (directRoles E roleList) <> 0%nat ->
   GetProjectRoles E s v = (Done (directRoles E roleList), asked)) /\
  (len (directRoles E roleList) = 0%nat ->
   GetProjectRoles E s v
   = (retval (GetRolesByGroup E s v),
      (asked ++ trace (GetRolesByGroup E s v))%list)) /\
  (existsb groupPathCall (trace (GetProjectRoles E s v)) = true ->
   len (directRoles E roleList) = 0%nat).
Proof.
  intros Hu Hv Husr Hprj Hroles asked.
  rewrite (GetProjectRoles_resolved s v Hu Hv Husr Hprj Hroles).
  fold asked. unfold bind, ret, retval, trace. simpl fst. simpl snd.
  destruct (len (directRoles E roleList)) as [| n] eqn:Hlen; simpl.
  - repeat split; congruence.
  - repeat split; try congruence; try discriminate.
Qed.

(** The loop over the direct role list, case by case. *)
Lemma appendRole_table :
  (forall roles role,
      RoleCode role = "MDRWS" ->
      appendRole E roles role = append roles (RoleProjectAdmin E)) /\
  (forall roles role,
      RoleCode role = "RWS" ->
      appendRole E roles role = append roles (RoleDeveloper E)) /\
  (forall roles role,
      RoleCode role = "RS" ->
      appendRole E roles role = append roles (RoleGuest E)) /\
  (forall roles role,
      RoleCode role <> "MDRWS" ->
      RoleCode role <> "RWS" ->
      RoleCode role <> "RS" ->
      appendRole E roles role = roles) /\
  (forall roleList,
      directRoles E roleList
      = Some (flat_map (rolesOfCode E) (elems roleList))) /\
  (forall before role after,
      RoleCodeTable E (RoleCode role) = None ->
      directRoles E (Some (before ++ role :: after)%list)
      = directRoles E (Some (before ++ after)%list)).
Proof.
  repeat split.
  - intros roles role H. unfold appendRole. now rewrite H.
  - intros roles role H. unfold appendRole. now rewrite H.
  - intros roles role H. unfold appendRole. now rewrite H.
  - intros roles role H1 H2 H3. unfold appendRole.
    apply String.eqb_neq in H1, H2, H3. now rewrite H1, H2, H3.
  - apply directRoles_flat_map.
  - intros before role after H. rewrite !directRoles_flat_map. simpl.
    rewrite !flat_map_app. simpl. unfold rolesOfCode at 2.
    now rewrite H.
Qed.

(** C8. GetProjectRoles with the nil project identifier returns the
    empty set for every context without any call to a collaborator; it
    is the value returned when the project is not found, and it is no
    failure. *)
Theorem GetProjectRoles_nil_project (s : SecurityContext UserGroup) :
  GetProjectRoles E s None = (Done emptySlice, []) /\
  (forall (v : iface) (u usr : User UserGroup),
      user s = Some u ->
      dao_GetUser E (userQuery UserGroup (Username u)) = (Some usr, None) ->
      Get (pm s) v = (None, None) ->
      retval (GetProjectRoles E s v) = retval (GetProjectRoles E s None)).
Proof.
  assert (Hnil : GetProjectRoles E s None = (Done emptySlice, [])).
  { unfold GetProjectRoles. simpl. now rewrite orb_true_r. }
  split; [exact Hnil |].
  intros v u usr Hu Husr Hprj. rewrite Hnil.
  unfold GetProjectRoles, dao_GetUser', pm_Get, GetUsername,
    IsAuthenticated, log_Errorf, emit, bind, ret, retval.
  rewrite Hu. simpl. destruct (isNil v); [reflexivity |].
  rewrite Husr. simpl. now rewrite Hprj.
Qed.

(** C9 (amended). GetRolesByGroup returns the nil slice when the
    group-to-role query fails, and the same nil slice on each of its
    precondition failures (project lookup error or miss, no principal, no
    group membership); when the query succeeds it returns the slice of
    the store unchanged.  A failed query therefore differs from a
    successful one without roles only if the store then answers with a
    slice that is not nil, and it never differs from a precondition
    failure. *)
Theorem GetRolesByGroup_results
        (s : SecurityContext UserGroup) (v : iface) :
  ((snd (Get (pm s) v) <> None \/
    fst (Get (pm s) v) = None \/
    user s = None \/
    (exists u, user s = Some u /\ len (GroupList u) = 0%nat)) ->
   retval (GetRolesByGroup E s v) = Done nilSlice) /\
  (forall (u : User UserGroup) (project : Project),
      Get (pm s) v = (Some project, None) ->
      user s = Some u ->
      len (GroupList u) <> 0%nat ->
      let answer :=
        dao_GetRolesByLDAPGroup E (ProjectID project)
          (group_GetGroupDNQueryCondition E (GroupList u)) in
      (snd answer <> None ->
       retval (GetRolesByGroup E s v) = Done nilSlice) /\
      (snd answer = None ->
       retval (GetRolesByGroup E s v) = Done (fst answer))).
Proof.
  split.
  - unfold GetRolesByGroup, pm_Get, bind, ret, retval. simpl.
    destruct (Get (pm s) v) as [project err]. simpl.
    intros [H | [H | [H | (u & Hu & Hlen)]]].
    + now destruct err.
    + subst project. now destruct err.
    + rewrite H. destruct err; [reflexivity | now destruct project].
    + rewrite Hu. destruct err; [reflexivity |].
      destruct project; [| reflexivity]. now rewrite Hlen.
  - intros u project Hprj Hu Hlen answer.
    unfold GetRolesByGroup, pm_Get, dao_GetRolesByLDAPGroup',
      group_GetGroupDNQueryCondition', bind, ret, retval.
    simpl. rewrite Hprj, Hu. simpl.
    apply Nat.eqb_neq in Hlen. rewrite Hlen. simpl.
    fold answer. destruct answer as [roles [e |]]; simpl;
      split; congruence.
Qed.

(** C10. GetMyProjects has no authentication guard: with no principal it
    panics on the dereference of the absent user before the project
    manager is called, and returns neither a list nor a failure; with a
    principal it asks the project manager once, with the user's name and
    group list, and hands back the store's failure or the listed
    projects. *)
Theorem GetMyProjects_unguarded (s : SecurityContext UserGroup) :
  (IsAuthenticated s = false ->
   GetMyProjects GroupDNCondition s = (Panic, [])) /\
  (forall u : User UserGroup,
      user s = Some u ->
      let query :=
        Some {| Member := Some {| MemberQuery_Name := Username u;
                                  MemberQuery_GroupList := GroupList u |}
             |} in
      trace (GetMyProjects GroupDNCondition s)
      = [EvList query (List (pm s) query)] /\
      (forall e, snd (List (pm s) query) = Some e ->
                 retval (GetMyProjects GroupDNCondition s)
                 = Done (nilSlice, Some e)) /\
      (forall result, List (pm s) query = (Some result, None) ->
                      retval (GetMyProjects GroupDNCondition s)
                      = Done (Projects result, None))).
Proof.
  split.
  - unfold IsAuthenticated, GetMyProjects. now destruct (user s).
  - intros u Hu query.
    unfold GetMyProjects, GetUsername, IsAuthenticated, pm_List, bind, ret,
      panic, retval, trace.
    rewrite Hu. simpl. fold query.
    destruct (List (pm s) query) as [result err]. simpl.
    repeat split.
    + destruct err; [| destruct result]; simpl; now rewrite ?app_nil_r.
    + now intros e ->.
    + intros r H. now inversion H.
Qed.

(** *** Further properties of the predicates *)

Lemma grantsAll_grantsWrite (r : Z) :
  grantsAll E r = true -> grantsWrite E r = true.
Proof. unfold grantsAll, grantsWrite. now intros ->. Qed.

Lemma existsb_nonempty (A : Type) (f : A -> bool) (l : list A) :
  existsb f l = true -> (0 <? List.length l)%nat = true.
Proof. now destruct l. Qed.

Lemma unauthenticated_not_admin (s : SecurityContext UserGroup) :
  IsAuthenticated s = false -> IsSysAdmin s = false.
Proof. unfold IsSysAdmin. now intros ->. Qed.

(** X1. The three permissions are ordered: whoever has full control may
    write, and whoever may write may read as long as the public-flag
    lookup returns without error. *)
Theorem permissions_ordered (s : SecurityContext UserGroup) (v : iface) :
  (retval (HasAllPerm E s v) = Done true ->
   retval (HasWritePerm E s v) = Done true) /\
  (retval (HasWritePerm E s v) = Done true ->
   snd (IsPublic (pm s) v) = None ->
   retval (HasReadPerm E s v) = Done true).
Proof.
  destruct (GetProjectRoles_done s v) as (roles & Hroles).
  destruct (IsAuthenticated s) eqn:Hauth.
  - destruct (IsSysAdmin s) eqn:Hadmin.
    + split.
      * intros _. unfold HasWritePerm. now rewrite Hauth, Hadmin.
      * intros _. unfold HasReadPerm, pm_IsPublic, bind, ret, retval. simpl.
        rewrite Hauth, Hadmin.
        destruct (IsPublic (pm s) v) as [public err]. simpl.
        intros ->. now destruct public.
    + rewrite (@HasWritePerm_member s v roles Hauth Hadmin Hroles).
      rewrite (@HasAllPerm_member s v roles Hauth Hadmin Hroles).
      split.
      * intros H. injection H as H. f_equal.
        apply existsb_exists in H. destruct H as (r & Hin & Hr).
        apply existsb_exists. exists r. split; trivial.
        now apply grantsAll_grantsWrite.
      * intros H Hpub. injection H as H.
        rewrite (@HasReadPerm_member s v roles Hauth Hadmin Hroles Hpub).
        f_equal. apply orb_true_iff. right.
        now apply existsb_nonempty in H.
  - unfold HasAllPerm, HasWritePerm. rewrite Hauth. simpl.
    split; discriminate.
Qed.

(** X2. HasWritePerm returns true exactly for a system administrator and
    for an authenticated principal whose resolved roles contain
    ProjectAdmin or Developer; HasAllPerm exactly for a system
    administrator and for an authenticated principal whose resolved roles
    contain ProjectAdmin. *)
Theorem write_and_all_characterised
        (s : SecurityContext UserGroup) (v : iface) :
  (retval (HasWritePerm E s v) = Done true <->
   IsSysAdmin s = true \/
   (IsAuthenticated s = true /\
    exists roles,
      retval (GetProjectRoles E s v) = Done roles /\
      (In (RoleProjectAdmin E) (elems roles) \/
       In (RoleDeveloper E) (elems roles)))) /\
  (retval (HasAllPerm E s v) = Done true <->
   IsSysAdmin s = true \/
   (IsAuthenticated s = true /\
    exists roles,
      retval (GetProjectRoles E s v) = Done roles /\
      In (RoleProjectAdmin E) (elems roles))).
Proof.
  destruct (GetProjectRoles_done s v) as (roles & Hroles).
  destruct (IsAuthenticated s) eqn:Hauth.
  - destruct (IsSysAdmin s) eqn:Hadmin.
    + unfold HasWritePerm, HasAllPerm. rewrite Hauth, Hadmin. simpl.
      split; split; auto.
    + rewrite (@HasWritePerm_member s v roles Hauth Hadmin Hroles).
      rewrite (@HasAllPerm_member s v roles Hauth Hadmin Hroles).
      split; split.
      * intros H. injection H as H. right. split; trivial.
        exists roles. split; trivial.
        apply existsb_exists in H. destruct H as (r & Hin & Hr).
        unfold grantsWrite in Hr. apply orb_true_iff in Hr.
        destruct Hr as [Hr | Hr]; apply Z.eqb_eq in Hr; subst r; auto.
      * intros [H | (_ & roles' & Hroles' & Hin)]; [discriminate |].
        rewrite Hroles in Hroles'. injection Hroles' as <-.
        f_equal. apply existsb_exists. unfold grantsWrite.
        destruct Hin as [Hin | Hin];
          [exists (RoleProjectAdmin E) | exists (RoleDeveloper E)];
          split; trivial; rewrite Z.eqb_refl; auto using orb_true_r.
      * intros H. injection H as H. right. split; trivial.
        exists roles. split; trivial.
        apply existsb_exists in H. destruct H as (r & Hin & Hr).
        unfold grantsAll in Hr. apply Z.eqb_eq in Hr. now subst r.
      * intros [H | (_ & roles' & Hroles' & Hin)]; [discriminate |].
        rewrite Hroles in Hroles'. injection Hroles' as <-.
        f_equal. apply existsb_exists. exists (RoleProjectAdmin E).
        split; trivial. unfold grantsAll. apply Z.eqb_refl.
  - rewrite (unauthenticated_not_admin s Hauth).
    unfold HasWritePerm, HasAllPerm. rewrite Hauth. simpl.
    split; split; try discriminate;
      intros [H | (H & _)]; discriminate.
Qed.

(** X3. HasReadPerm returns true exactly when both of these hold: (1) the
    public-flag lookup returns without error; (2) the project is public, or
    the principal is a system administrator, or the principal is
    authenticated and at least one role is resolved, whatever the role is.
    When the lookup fails it returns false for everyone. *)
Theorem read_characterised (s : SecurityContext UserGroup) (v : iface) :
  retval (HasReadPerm E s v) = Done true <->
  snd (IsPublic (pm s) v) = None /\
  (fst (IsPublic (pm s) v) = true \/
   IsSysAdmin s = true \/
   (IsAuthenticated s = true /\
    exists roles,
      retval (GetProjectRoles E s v) = Done roles /\
      (0 < len roles)%nat)).
Proof.
  destruct (GetProjectRoles_done s v) as (roles & Hroles).
  unfold HasReadPerm, pm_IsPublic, bind, ret, retval in *. simpl.
  destruct (IsPublic (pm s) v) as [public [e |]]; simpl.
  - split; [discriminate | intros (H & _); discriminate].
  - destruct public; simpl; [split; auto |].
    destruct (IsAuthenticated s) eqn:Hauth; simpl.
    + destruct (IsSysAdmin s) eqn:Hadmin; simpl; [split; auto |].
      rewrite Hroles. split.
      * intros H. injection H as H. apply Nat.ltb_lt in H.
        split; trivial. right. right. split; trivial. now exists roles.
      * intros (_ & [H | [H | (_ & roles' & Hroles' & Hlen)]]);
          try discriminate.
        injection Hroles' as <-. simpl. f_equal. now apply Nat.ltb_lt.
    + rewrite (unauthenticated_not_admin s Hauth). split; [discriminate |].
      intros (_ & [H | [H | (H & _)]]); discriminate.
Qed.

(** X4. An unauthenticated caller's read permission is the public flag and
    nothing else: HasReadPerm returns true exactly when the lookup answers
    "public" without error, and neither the project nor any store is
    looked up. *)
Theorem anonymous_read_is_public_flag
        (s : SecurityContext UserGroup) (v : iface) :
  IsAuthenticated s = false ->
  retval (HasReadPerm E s v)
  = Done (fst (IsPublic (pm s) v) && negb (isErr (snd (IsPublic (pm s) v))))
  /\ existsb storeCall (trace (HasReadPerm E s v)) = false
  /\ existsb projectLookup (trace (HasReadPerm E s v)) = false.
Proof.
  intros Hanon.
  unfold HasReadPerm, pm_IsPublic, log_Errorf, emit, bind, ret, retval, trace.
  simpl. rewrite Hanon.
  destruct (IsPublic (pm s) v) as [[|] [e |]]; simpl; repeat split.
Qed.

(** X5. Public visibility grants nothing beyond reading: HasWritePerm and
    HasAllPerm never ask for the public flag and never list projects, and
    their whole run is the same under any project manager that resolves
    the project the same way. *)
Theorem write_and_all_ignore_public_flag
        (s : SecurityContext UserGroup) (v : iface) :
  existsb (fun ev => publicFlagCall ev || listCall ev)
          (trace (HasWritePerm E s v)) = false /\
  existsb (fun ev => publicFlagCall ev || listCall ev)
          (trace (HasAllPerm E s v)) = false /\
  (forall pm' : ProjectManager UserGroup,
      Get pm' v = Get (pm s) v ->
      HasWritePerm E (NewSecurityContext (user s) pm') v = HasWritePerm E s v /\
      HasAllPerm E (NewSecurityContext (user s) pm') v = HasAllPerm E s v).
Proof.
  split; [| split].
  - run.
  - run.
  - intros pm' Hget. destruct s as [u pm0]. simpl in Hget.
    unfold HasWritePerm, HasAllPerm, GetProjectRoles, GetRolesByGroup,
      pm_Get, NewSecurityContext, IsSysAdmin, GetUsername, IsAuthenticated.
    simpl. rewrite Hget. split; reflexivity.
Qed.

(** X6. With the nil project identifier HasWritePerm and HasAllPerm make
    no call at all and return true for a system administrator only;
    HasReadPerm returns true exactly when the public-flag lookup of the
    nil identifier succeeds and either answers "public" or the principal
    is a system administrator. *)
Theorem nil_project_permissions (s : SecurityContext UserGroup) :
  HasWritePerm E s None = (Done (IsSysAdmin s), []) /\
  HasAllPerm E s None = (Done (IsSysAdmin s), []) /\
  retval (HasReadPerm E s None)
  = Done (negb (isErr (snd (IsPublic (pm s) None)))
          && (fst (IsPublic (pm s) None) || IsSysAdmin s)).
Proof.
  split; [| split]; run.
Qed.

(** X7. Role resolution trusts the principal's name and group list only:
    two principals with the same username and the same groups resolve to
    the same roles through the same calls, whatever their own user id and
    admin flag are. *)
Theorem roles_depend_on_name_and_groups
        (u1 u2 : User UserGroup) (pm0 : ProjectManager UserGroup)
        (v : iface) :
  Username u1 = Username u2 ->
  GroupList u1 = GroupList u2 ->
  GetProjectRoles E (NewSecurityContext (Some u1) pm0) v
  = GetProjectRoles E (NewSecurityContext (Some u2) pm0) v.
Proof.
  intros Hname Hgroups.
  unfold GetProjectRoles, GetRolesByGroup, NewSecurityContext, GetUsername,
    IsAuthenticated.
  simpl. now rewrite Hname, Hgroups.
Qed.

Lemma flat_map_rolesOfCode (l : list Role) :
  Forall (fun r => r = RoleProjectAdmin E \/ r = RoleDeveloper E
                   \/ r = RoleGuest E)
         (flat_map (rolesOfCode E) l) /\
  List.length (flat_map (rolesOfCode E) l)
  = List.length (filter recognized l).
Proof.
  induction l as [| role l (IHall & IHlen)]; simpl.
  - split; [constructor | reflexivity].
  - unfold rolesOfCode at 1 3, RoleCodeTable, recognized.
    destruct (String.eqb (RoleCode role) "MDRWS"); simpl;
      [split; [constructor; auto | now rewrite IHlen] |].
    destruct (String.eqb (RoleCode role) "RWS"); simpl;
      [split; [constructor; auto | now rewrite IHlen] |].
    destruct (String.eqb (RoleCode role) "RS"); simpl;
      [split; [constructor; auto | now rewrite IHlen] |].
    now split.
Qed.

(** X8. The direct role set is never the nil slice, holds nothing but the
    three role constants, and has one entry per role row with a recognized
    code (repeated rows are kept), so never more entries than rows. *)
Theorem directRoles_invariant (roleList : slice Role) :
  exists l,
    directRoles E roleList = Some l /\
    Forall (fun r => r = RoleProjectAdmin E \/ r = RoleDeveloper E
                     \/ r = RoleGuest E) l /\
    List.length l = List.length (filter recognized (elems roleList)) /\
    (List.length l <= len roleList)%nat.
Proof.
  exists (flat_map (rolesOfCode E) (elems roleList)).
  destruct (flat_map_rolesOfCode (elems roleList)) as (Hall & Hlen).
  split; [apply directRoles_flat_map |].
  split; [exact Hall |]. split; [exact Hlen |].
  rewrite Hlen. unfold len. apply filter_length_le.
Qed.

(** *** What the runs do and never do *)

(** X9. A message is logged only when a call failed, and at most one per
    run of GetProjectRoles or of a permission predicate; GetRolesByGroup
    logs nothing, not even a failed group query. *)
Theorem logs_only_on_failure (s : SecurityContext UserGroup) (v : iface) :
  existsb isLog (trace (GetRolesByGroup E s v)) = false /\
  ((List.length (filter isLog (trace (GetProjectRoles E s v))) <= 1)%nat /\
   (existsb isLog (trace (GetProjectRoles E s v)) = true ->
    existsb failedCall (trace (GetProjectRoles E s v)) = true)) /\
  ((List.length (filter isLog (trace (HasReadPerm E s v))) <= 1)%nat /\
   (existsb isLog (trace (HasReadPerm E s v)) = true ->
    existsb failedCall (trace (HasReadPerm E s v)) = true)) /\
  ((List.length (filter isLog (trace (HasWritePerm E s v))) <= 1)%nat /\
   (existsb isLog (trace (HasWritePerm E s v)) = true ->
    existsb failedCall (trace (HasWritePerm E s v)) = true)) /\
  ((List.length (filter isLog (trace (HasAllPerm E s v))) <= 1)%nat /\
   (existsb isLog (trace (HasAllPerm E s v)) = true ->
    existsb failedCall (trace (HasAllPerm E s v)) = true)).
Proof.
  split; [run |].
  repeat match goal with |- _ /\ _ => split end;
    try intros H; run; auto.
Qed.

(** X10. The group stores are asked only on behalf of a principal with at
    least one group: with no principal, or with an empty group list, no
    run builds a group condition or queries the group roles. *)
Theorem group_store_needs_groups
        (s : SecurityContext UserGroup) (v : iface) :
  (IsAuthenticated s = false \/
   exists u, user s = Some u /\ len (GroupList u) = 0%nat) ->
  existsb groupPathCall (trace (GetRolesByGroup E s v)) = false /\
  existsb groupPathCall (trace (GetProjectRoles E s v)) = false /\
  existsb groupPathCall (trace (HasReadPerm E s v)) = false /\
  existsb groupPathCall (trace (HasWritePerm E s v)) = false /\
  existsb groupPathCall (trace (HasAllPerm E s v)) = false.
Proof.
  intros [Hanon | (u & Hu & Hlen)].
  - repeat match goal with |- _ /\ _ => split end; run.
  - apply Nat.eqb_eq in Hlen.
    repeat match goal with |- _ /\ _ => split end;
      unfold_calls; rewrite Hu; simpl; rewrite ?Hlen;
      repeat (break_match; simpl in *; try congruence).
Qed.

(** X12. Role resolution fails closed: whenever a call made by
    GetProjectRoles or by GetRolesByGroup ends in an error or a miss, the
    resolved role set has no element. *)
Theorem role_resolution_fails_closed
        (s : SecurityContext UserGroup) (v : iface) :
  (existsb failedCall (trace (GetProjectRoles E s v)) = true ->
   exists roles,
     retval (GetProjectRoles E s v) = Done roles /\ len roles = 0%nat) /\
  (existsb failedCall (trace (GetRolesByGroup E s v)) = true ->
   exists roles,
     retval (GetRolesByGroup E s v) = Done roles /\ len roles = 0%nat).
Proof.
  split; intros H.
  - destruct (GetProjectRoles_failed s v H) as (roles & Hr & Hnil).
    exists roles. split; trivial. unfold len. now rewrite Hnil.
  - destruct (GetRolesByGroup_failed s v H) as (roles & Hr & Hnil).
    exists roles. split; trivial. unfold len. now rewrite Hnil.
Qed.

(** X13. A permission check is cheap: HasReadPerm makes at most seven
    calls to its collaborators, HasWritePerm, HasAllPerm and
    GetProjectRoles at most six, GetRolesByGroup at most three, and the
    project is looked up at most twice. *)
Theorem call_budget (s : SecurityContext UserGroup) (v : iface) :
  (List.length (calls (trace (HasReadPerm E s v))) <= 7)%nat /\
  (List.length (calls (trace (HasWritePerm E s v))) <= 6)%nat /\
  (List.length (calls (trace (HasAllPerm E s v))) <= 6)%nat /\
  (List.length (calls (trace (GetProjectRoles E s v))) <= 6)%nat /\
  (List.length (calls (trace (GetRolesByGroup E s v))) <= 3)%nat /\
  (List.length (filter projectLookup (trace (HasReadPerm E s v))) <= 2)%nat.
Proof.
  repeat match goal with |- _ /\ _ => split end;
    unfold calls; run; lia.
Qed.

(** X14. The accessors are guarded by the presence of a principal: a
    system administrator is authenticated, and so is any context with a
    non-empty username; no context is a solution user. *)
Theorem accessors_guarded (s : SecurityContext UserGroup) :
  (IsSysAdmin s = true -> IsAuthenticated s = true) /\
  (GetUsername s <> "" -> IsAuthenticated s = true) /\
  IsSolutionUser s = false.
Proof.
  unfold IsSysAdmin, GetUsername, IsSolutionUser.
  destruct (IsAuthenticated s); simpl; repeat split; congruence.
Qed.

(** *** From the stores' answers to the decision *)

Lemma filter_nothing (A : Type) (f : A -> bool) (l : list A) :
  (forall x, In x l -> f x = false) -> filter f l = [].
Proof.
  induction l as [| x l IH]; intros H; simpl; trivial.
  rewrite (H x (or_introl eq_refl)). apply IH.
  intros y Hy. apply H. now right.
Qed.

Lemma directRoles_len (roleList : slice Role) :
  len (directRoles E roleList)
  = List.length (filter recognized (elems roleList)).
Proof.
  rewrite directRoles_flat_map. unfold len. simpl.
  apply flat_map_rolesOfCode.
Qed.

Lemma existsb_flat_map (A B : Type) (f : B -> bool) (g : A -> list B)
      (l : list A) :
  existsb f (flat_map g l) = existsb (fun a => existsb f (g a)) l.
Proof.
  induction l as [| a l IH]; simpl; trivial.
  now rewrite existsb_app, IH.
Qed.

Lemma grantsWrite_rolesOfCode (role : Role) :
  RolesDistinct E ->
  existsb (grantsWrite E) (rolesOfCode E role)
  = String.eqb (RoleCode role) "MDRWS" || String.eqb (RoleCode role) "RWS".
Proof.
  intros (Had & Hga & Hgd).
  unfold rolesOfCode, RoleCodeTable, grantsWrite.
  destruct (String.eqb (RoleCode role) "MDRWS"); simpl.
  - now rewrite Z.eqb_refl.
  - destruct (String.eqb (RoleCode role) "RWS"); simpl.
    + rewrite Z.eqb_refl. now rewrite !orb_true_r.
    + destruct (String.eqb (RoleCode role) "RS"); simpl; trivial.
      apply Z.eqb_neq in Hga, Hgd. now rewrite Hga, Hgd.
Qed.

Lemma grantsAll_rolesOfCode (role : Role) :
  RolesDistinct E ->
  existsb (grantsAll E) (rolesOfCode E role)
  = String.eqb (RoleCode role) "MDRWS".
Proof.
  intros (Had & Hga & Hgd).
  unfold rolesOfCode, RoleCodeTable, grantsAll.
  destruct (String.eqb (RoleCode role) "MDRWS"); simpl.
  - now rewrite Z.eqb_refl.
  - destruct (String.eqb (RoleCode role) "RWS"); simpl.
    + assert (H : RoleDeveloper E <> RoleProjectAdmin E) by congruence.
      apply Z.eqb_neq in H. now rewrite H.
    + destruct (String.eqb (RoleCode role) "RS"); simpl; trivial.
      apply Z.eqb_neq in Hga. now rewrite Hga.
Qed.

Section Resolved.

Variables (s : SecurityContext UserGroup) (v : iface).
Variables (u usr : User UserGroup) (project : Project).
Variable roleList : slice Role.
Hypothesis principal : user s = Some u.
Hypothesis not_admin : HasAdminRole u = false.
Hypothesis identifier : isNil v = false.
Hypothesis user_found :
  dao_GetUser E (userQuery UserGroup (Username u)) = (Some usr, None).
Hypothesis project_found : Get (pm s) v = (Some project, None).
Hypothesis roles_listed :
  dao_GetUserProjectRoles E (UserID usr) (ProjectID project) (UserMember E)
  = (roleList, None).

Lemma resolved_authenticated : IsAuthenticated s = true.
Proof. unfold IsAuthenticated. now rewrite principal. Qed.

Lemma resolved_not_admin : IsSysAdmin s = false.
Proof.
  unfold IsSysAdmin. rewrite resolved_authenticated. simpl.
  now rewrite principal.
Qed.

Lemma resolved_direct :
  (exists role, In role (elems roleList) /\ recognized role = true) ->
  retval (GetProjectRoles E s v) = Done (directRoles E roleList).
Proof.
  intros (role & Hin & Hrec).
  rewrite (GetProjectRoles_resolved s v principal identifier user_found
             project_found roles_listed).
  unfold bind, ret, retval. simpl fst.
  rewrite directRoles_len.
  assert (Hf : In role (filter recognized (elems roleList)))
    by now apply filter_In.
  now destruct (filter recognized (elems roleList)).
Qed.

Lemma resolved_group (groupRoles : slice Z) :
  (forall role, In role (elems roleList) -> recognized role = false) ->
  len (GroupList u) <> 0%nat ->
  dao_GetRolesByLDAPGroup E (ProjectID project)
    (group_GetGroupDNQueryCondition E (GroupList u)) = (groupRoles, None) ->
  retval (GetProjectRoles E s v) = Done groupRoles.
Proof.
  intros Hnone Hgroups Hanswer.
  rewrite (GetProjectRoles_resolved s v principal identifier user_found
             project_found roles_listed).
  unfold bind, ret, retval. simpl fst.
  rewrite directRoles_len, (filter_nothing _ _ Hnone). simpl.
  unfold GetRolesByGroup, pm_Get, dao_GetRolesByLDAPGroup',
    group_GetGroupDNQueryCondition', bind, ret.
  simpl. rewrite project_found, principal. simpl.
  apply Nat.eqb_neq in Hgroups. rewrite Hgroups. simpl.
  now rewrite Hanswer.
Qed.

End Resolved.

(** X15. Group-inherited roles are not filtered: when no direct role code
    is recognized and the group query succeeds, GetProjectRoles returns
    the slice of the group store as it is, whatever integers it holds, and
    for a principal who is not a system administrator the predicates are
    decided on it: write and full control by the role values, read (on a
    project that is not public) by the mere presence of an entry. *)
Theorem group_roles_pass_unfiltered
        (s : SecurityContext UserGroup) (v : iface)
        (u usr : User UserGroup) (project : Project)
        (roleList : slice Role) (groupRoles : slice Z) :
  user s = Some u ->
  isNil v = false ->
  dao_GetUser E (userQuery UserGroup (Username u)) = (Some usr, None) ->
  Get (pm s) v = (Some project, None) ->
  dao_GetUserProjectRoles E (UserID usr) (ProjectID project) (UserMember E)
  = (roleList, None) ->
  (forall role, In role (elems roleList) -> recognized role = false) ->
  len (GroupList u) <> 0%nat ->
  dao_GetRolesByLDAPGroup E (ProjectID project)
    (group_GetGroupDNQueryCondition E (GroupList u)) = (groupRoles, None) ->
  retval (GetProjectRoles E s v) = Done groupRoles /\
  (HasAdminRole u = false ->
   retval (HasWritePerm E s v)
   = Done (existsb (grantsWrite E) (elems groupRoles)) /\
   retval (HasAllPerm E s v)
   = Done (existsb (grantsAll E) (elems groupRoles)) /\
   (IsPublic (pm s) v = (false, None) ->
    retval (HasReadPerm E s v) = Done (0 <? len groupRoles)%nat)).
Proof.
  intros Hu Hv Husr Hprj Hroles Hnone Hgroups Hanswer.
  assert (Hres : retval (GetProjectRoles E s v) = Done groupRoles)
    by (eapply resolved_group; eauto).
  split; [exact Hres |]. intros Hadmin.
  assert (Hauth : IsAuthenticated s = true)
    by (eapply resolved_authenticated; eauto).
  assert (Hna : IsSysAdmin s = false)
    by (eapply resolved_not_admin; eauto).
  split; [exact (@HasWritePerm_member s v groupRoles Hauth Hna Hres) |].
  split; [exact (@HasAllPerm_member s v groupRoles Hauth Hna Hres) |].
  intros Hpub.
  rewrite (@HasReadPerm_member s v groupRoles Hauth Hna Hres);
    now rewrite Hpub.
Qed.

(** X16. From role codes to decisions: for a principal who is not a
    system administrator, with user, project and direct role rows resolved
    and at least one row of a recognized code, HasWritePerm is true
    exactly when some row has code "MDRWS" or "RWS", and HasAllPerm
    exactly when some row has code "MDRWS" (the three role constants being
    distinct). *)
Theorem direct_codes_decide
        (s : SecurityContext UserGroup) (v : iface)
        (u usr : User UserGroup) (project : Project)
        (roleList : slice Role) :
  RolesDistinct E ->
  user s = Some u ->
  HasAdminRole u = false ->
  isNil v = false ->
  dao_GetUser E (userQuery UserGroup (Username u)) = (Some usr, None) ->
  Get (pm s) v = (Some project, None) ->
  dao_GetUserProjectRoles E (UserID usr) (ProjectID project) (UserMember E)
  = (roleList, None) ->
  (exists role, In role (elems roleList) /\ recognized role = true) ->
  (retval (HasWritePerm E s v) = Done true <->
   exists role, In role (elems roleList) /\
                (RoleCode role = "MDRWS" \/ RoleCode role = "RWS")) /\
  (retval (HasAllPerm E s v) = Done true <->
   exists role, In role (elems roleList) /\ RoleCode role = "MDRWS").
Proof.
  intros Hdist Hu Hadmin Hv Husr Hprj Hroles Hrec.
  assert (Hres : retval (GetProjectRoles E s v)
                 = Done (directRoles E roleList))
    by (eapply resolved_direct; eauto).
  assert (Hauth : IsAuthenticated s = true)
    by (eapply resolved_authenticated; eauto).
  assert (Hna : IsSysAdmin s = false)
    by (eapply resolved_not_admin; eauto).
  rewrite (@HasWritePerm_member s v _ Hauth Hna Hres).
  rewrite (@HasAllPerm_member s v _ Hauth Hna Hres).
  rewrite directRoles_flat_map. simpl elems.
  rewrite !existsb_flat_map.
  split; split.
  - intros H. injection H as H. apply existsb_exists in H.
    destruct H as (role & Hin & Hg). exists role. split; trivial.
    rewrite (grantsWrite_rolesOfCode role Hdist) in Hg.
    apply orb_true_iff in Hg.
    destruct Hg as [Hg | Hg]; apply String.eqb_eq in Hg; auto.
  - intros (role & Hin & Hcode). f_equal. apply existsb_exists.
    exists role. split; trivial.
    rewrite (grantsWrite_rolesOfCode role Hdist). apply orb_true_iff.
    destruct Hcode as [Hc | Hc]; apply String.eqb_eq in Hc; auto.
  - intros H. injection H as H. apply existsb_exists in H.
    destruct H as (role & Hin & Hg). exists role. split; trivial.
    rewrite (grantsAll_rolesOfCode role Hdist) in Hg.
    now apply String.eqb_eq in Hg.
  - intros (role & Hin & Hcode). f_equal. apply existsb_exists.
    exists role. split; trivial.
    rewrite (grantsAll_rolesOfCode role Hdist).
    now apply String.eqb_eq.
Qed.

(** *** The role codes in the resolved role set *)

Lemma recognized_codes (role : Role) :
  recognized role = true <->
  RoleCode role = "MDRWS" \/ RoleCode role = "RWS" \/ RoleCode role = "RS".
Proof.
  unfold recognized. rewrite !orb_true_iff, !String.eqb_eq. tauto.
Qed.

Lemma unrecognized_codes (role : Role) :
  RoleCode role <> "MDRWS" /\ RoleCode role <> "RWS" /\ RoleCode role <> "RS"
  -> recognized role = false.
Proof.
  intros (H1 & H2 & H3). apply not_true_is_false. intros H.
  apply recognized_codes in H. tauto.
Qed.

Lemma In_rolesOfCode (role : Role) (r : Z) :
  In r (rolesOfCode E role) <->
  (RoleCode role = "MDRWS" /\ r = RoleProjectAdmin E) \/
  (RoleCode role = "RWS" /\ r = RoleDeveloper E) \/
  (RoleCode role = "RS" /\ r = RoleGuest E).
Proof.
  unfold rolesOfCode, RoleCodeTable.
  destruct (String.eqb (RoleCode role) "MDRWS") eqn:H1;
    [| destruct (String.eqb (RoleCode role) "RWS") eqn:H2;
       [| destruct (String.eqb (RoleCode role) "RS") eqn:H3]];
    rewrite ?String.eqb_eq, ?String.eqb_neq in *; simpl;
    (split;
     [ intros Hin; try (destruct Hin as [<- | []]); try contradiction; auto
     | intros [(H & Hr) | [(H & Hr) | (H & Hr)]]; subst; auto;
       congruence ]).
Qed.

Lemma flat_map_recognized (l : list Role) :
  flat_map (rolesOfCode E) (filter recognized l)
  = flat_map (rolesOfCode E) l.
Proof.
  induction l as [| role l IH]; simpl; trivial.
  destruct (recognized role) eqn:Hrec; simpl; [now rewrite IH |].
  rewrite IH. unfold rolesOfCode, RoleCodeTable. unfold recognized in Hrec.
  apply orb_false_iff in Hrec. destruct Hrec as (Hrec & ->).
  apply orb_false_iff in Hrec. destruct Hrec as (-> & ->). reflexivity.
Qed.

(** C7. The role codes of the direct-assignment query reach the resolved
    role set of GetProjectRoles through the table "MDRWS" to ProjectAdmin,
    "RWS" to Developer, "RS" to Guest, and through nothing else.  With the
    principal, the user record and the project resolved and the query
    successful: if some row has one of the three codes, GetProjectRoles
    returns the table applied to the rows in order, a role is in the result
    exactly when a row maps to it, and the rows of any other code leave no
    trace in it (the result is that of the recognized rows alone, one entry
    each); if no row has one of the three codes, the rows contribute
    nothing and the result is that of the group path. *)
Theorem role_code_mapping
        (s : SecurityContext UserGroup) (v : iface)
        (u usr : User UserGroup) (project : Project)
        (roleList : slice Role) :
  user s = Some u ->
  isNil v = false ->
  dao_GetUser E (userQuery UserGroup (Username u)) = (Some usr, None) ->
  Get (pm s) v = (Some project, None) ->
  dao_GetUserProjectRoles E (UserID usr) (ProjectID project) (UserMember E)
  = (roleList, None) ->
  (RoleCodeTable E "MDRWS" = Some (RoleProjectAdmin E) /\
   RoleCodeTable E "RWS" = Some (RoleDeveloper E) /\
   RoleCodeTable E "RS" = Some (RoleGuest E) /\
   (forall code, code <> "MDRWS" -> code <> "RWS" -> code <> "RS" ->
                 RoleCodeTable E code = None)) /\
  ((exists role,
       In role (elems roleList) /\
       (RoleCode role = "MDRWS" \/ RoleCode role = "RWS"
        \/ RoleCode role = "RS")) ->
   exists roles,
     retval (GetProjectRoles E s v) = Done (Some roles) /\
     roles = flat_map (rolesOfCode E) (elems roleList) /\
     roles = flat_map (rolesOfCode E) (filter recognized (elems roleList)) /\
     List.length roles = List.length (filter recognized (elems roleList)) /\
     (forall r,
         In r roles <->
         exists role,
           In role (elems roleList) /\
           ((RoleCode role = "MDRWS" /\ r = RoleProjectAdmin E) \/
            (RoleCode role = "RWS" /\ r = RoleDeveloper E) \/
            (RoleCode role = "RS" /\ r = RoleGuest E)))) /\
  ((forall role,
       In role (elems roleList) ->
       RoleCode role <> "MDRWS" /\ RoleCode role <> "RWS"
       /\ RoleCode role <> "RS") ->
   retval (GetProjectRoles E s v) = retval (GetRolesByGroup E s v)).
Proof.
  intros Hu Hv Husr Hprj Hroles. split; [| split].
  - repeat split. intros code H1 H2 H3. unfold RoleCodeTable.
    apply String.eqb_neq in H1, H2, H3. now rewrite H1, H2, H3.
  - intros (role & Hin & Hcode).
    exists (flat_map (rolesOfCode E) (elems roleList)).
    split; [| split; [| split; [| split]]].
    + rewrite <- directRoles_flat_map.
      eapply resolved_direct; eauto.
      exists role. split; trivial. now apply recognized_codes.
    + reflexivity.
    + now rewrite flat_map_recognized.
    + apply flat_map_rolesOfCode.
    + intros r. rewrite in_flat_map. split.
      * intros (row & Hrow & Hr). exists row. split; trivial.
        now apply In_rolesOfCode.
      * intros (row & Hrow & Hr). exists row. split; trivial.
        now apply In_rolesOfCode.
  - intros Hnone.
    rewrite (GetProjectRoles_resolved s v Hu Hv Husr Hprj Hroles).
    unfold bind, ret, retval. simpl fst.
    rewrite directRoles_len.
    rewrite (filter_nothing recognized (elems roleList)); [reflexivity |].
    intros role Hin. apply unrecognized_codes. now apply Hnone.
Qed.

End Properties.

(** ** The properties at work on the sample stores *)


Lemma HasReadPerm_public_witness :
  IsPublic (pm (anonymous pmPublic)) p9 = (true, None) /\
  HasReadPerm (env [] (emptySlice, None)) (anonymous pmPublic) p9
  = (Done true, [EvIsPublic p9 (true, None)]).
Proof.
  split; [reflexivity |].
  apply (HasReadPerm_public (env [] (emptySlice, None))
                            (anonymous pmPublic) p9).
  reflexivity.
Defined.

(** The administrator and project 9, which the store does not know. *)
Lemma sysadmin_override_witness :
  IsSysAdmin (asRoot pmPrivate) = true /\
  Get (pm (asRoot pmPrivate)) p9 = (None, None) /\
  HasWritePerm (env [] (emptySlice, None)) (asRoot pmPrivate) p9
  = (Done true, []) /\
  HasAllPerm (env [] (emptySlice, None)) (asRoot pmPrivate) p9
  = (Done true, []) /\
  HasReadPerm (env [] (emptySlice, None)) (asRoot pmPrivate) p9
  = (Done true, [EvIsPublic p9 (false, None)]).
Proof.
  destruct (sysadmin_override (env [] (emptySlice, None))
                              (asRoot pmPrivate) p9 eq_refl)
    as (W & A & R).
  split; [reflexivity |]. split; [reflexivity |].
  split; [exact W |]. split; [exact A |].
  apply R. reflexivity.
Defined.

(** C3, as stated, fails: the administrator is refused read access when
    the public-flag lookup fails. *)
Lemma sysadmin_read_refused_on_flag_error :
  IsSysAdmin (asRoot pmDown) = true /\
  IsPublic (pm (asRoot pmDown)) p7 = (false, Some "connection refused") /\
  retval (HasReadPerm (env [] (emptySlice, None)) (asRoot pmDown) p7)
  = Done false.
Proof. repeat split. Qed.

Lemma unauthenticated_has_nothing_witness :
  IsAuthenticated (anonymous pmPublic) = false /\
  HasWritePerm (env ["MDRWS"] (Some [1], None)) (anonymous pmPublic) p7
  = (Done false, []) /\
  HasAllPerm (env ["MDRWS"] (Some [1], None)) (anonymous pmPublic) p7
  = (Done false, []) /\
  GetProjectRoles (env ["MDRWS"] (Some [1], None)) (anonymous pmPublic) p7
  = (Done emptySlice, []) /\
  GetUsername (anonymous pmPublic) = "" /\
  IsSysAdmin (anonymous pmPublic) = false.
Proof.
  split; [reflexivity |].
  apply (unauthenticated_has_nothing (env ["MDRWS"] (Some [1], None))
                                     (anonymous pmPublic) p7).
  reflexivity.
Defined.

(** Alice as project admin, as guest and as developer of project 7. *)
Lemma role_implication_witness :
  (retval (HasWritePerm (env ["MDRWS"] (emptySlice, None))
                        (asAlice pmPrivate) p7) = Done true /\
   retval (HasAllPerm (env ["MDRWS"] (emptySlice, None))
                      (asAlice pmPrivate) p7) = Done true) /\
  (retval (HasWritePerm (env ["RS"] (emptySlice, None))
                        (asAlice pmPrivate) p7) = Done false /\
   retval (HasAllPerm (env ["RS"] (emptySlice, None))
                      (asAlice pmPrivate) p7) = Done false /\
   retval (HasReadPerm (env ["RS"] (emptySlice, None))
                       (asAlice pmPrivate) p7) = Done true) /\
  (retval (HasWritePerm (env ["RWS"] (emptySlice, None))
                        (asAlice pmPrivate) p7) = Done true /\
   retval (HasAllPerm (env ["RWS"] (emptySlice, None))
                      (asAlice pmPrivate) p7) = Done false).
Proof.
  split; [| split].
  - apply (role_implication (env ["MDRWS"] (emptySlice, None))
             (asAlice pmPrivate) p7 (roles := Some [1%Z])
             eq_refl eq_refl eq_refl).
    simpl. now left.
  - destruct (role_implication (env ["RS"] (emptySlice, None))
                (asAlice pmPrivate) p7 (roles := Some [3%Z])
                eq_refl eq_refl eq_refl) as (_ & G & _).
    destruct G as (W & A & R).
    + unfold RolesDistinct. simpl. repeat split; discriminate.
    + discriminate.
    + simpl. intros r [<- | []]. reflexivity.
    + split; [exact W | split; [exact A | apply R; reflexivity]].
  - apply (role_implication (env ["RWS"] (emptySlice, None))
             (asAlice pmPrivate) p7 (roles := Some [2%Z])
             eq_refl eq_refl eq_refl).
    + simpl. now left.
    + simpl. intros [H | []]. discriminate.
Defined.

(** C5, as stated, fails: Alice is a guest of project 7 and nothing else,
    and she is refused read access when the public-flag lookup fails. *)
Lemma guest_read_refused_on_flag_error :
  IsAuthenticated (asAlice pmFlagDown) = true /\
  IsSysAdmin (asAlice pmFlagDown) = false /\
  retval (GetProjectRoles (env ["RS"] (emptySlice, None))
                          (asAlice pmFlagDown) p7)
  = Done (Some [RoleGuest (env ["RS"] (emptySlice, None))]) /\
  retval (HasReadPerm (env ["RS"] (emptySlice, None)) (asAlice pmFlagDown) p7)
  = Done false.
Proof. repeat split. Qed.

(** Alice is a developer of project 7 by direct assignment while her group
    would make her project admin: the group is not asked.  With no
    recognized direct code, the group's answer is the result. *)
Lemma direct_roles_shadow_group_roles_witness :
  (retval (GetProjectRoles (env ["RWS"; "OWNER"] (Some [1%Z], None))
                           (asAlice pmPrivate) p7) = Done (Some [2%Z]) /\
   existsb groupPathCall
     (trace (GetProjectRoles (env ["RWS"; "OWNER"] (Some [1%Z], None))
                             (asAlice pmPrivate) p7)) = false) /\
  (retval (GetProjectRoles (env ["OWNER"] (Some [1%Z], None))
                           (asAlice pmPrivate) p7) = Done (Some [1%Z]) /\
   existsb groupPathCall
     (trace (GetProjectRoles (env ["OWNER"] (Some [1%Z], None))
                             (asAlice pmPrivate) p7)) = true).
Proof.
  split.
  - destruct (direct_roles_shadow_group_roles
                (env ["RWS"; "OWNER"] (Some [1%Z], None))
                (asAlice pmPrivate) p7
                (u := alice) eq_refl eq_refl eq_refl eq_refl eq_refl)
      as (Direct & _ & _).
    rewrite Direct; [split; reflexivity | discriminate].
  - destruct (direct_roles_shadow_group_roles
                (env ["OWNER"] (Some [1%Z], None))
                (asAlice pmPrivate) p7
                (u := alice) eq_refl eq_refl eq_refl eq_refl eq_refl)
      as (_ & Group & _).
    rewrite Group; [split; reflexivity | reflexivity].
Defined.

(** Project 9 is not in the store: Alice gets what the nil identifier
    gets. *)
Lemma GetProjectRoles_nil_project_witness :
  Get (pm (asAlice pmPrivate)) p9 = (None, None) /\
  GetProjectRoles (env ["MDRWS"] (Some [1%Z], None)) (asAlice pmPrivate) None
  = (Done emptySlice, []) /\
  retval (GetProjectRoles (env ["MDRWS"] (Some [1%Z], None))
                          (asAlice pmPrivate) p9)
  = retval (GetProjectRoles (env ["MDRWS"] (Some [1%Z], None))
                            (asAlice pmPrivate) None).
Proof.
  destruct (GetProjectRoles_nil_project
              (env ["MDRWS"] (Some [1%Z], None)) (asAlice pmPrivate))
    as (Nil & Miss).
  split; [reflexivity |]. split; [exact Nil |].
  apply (Miss p9 alice
           {| UserID := 5; Username := "alice"; HasAdminRole := false;
              GroupList := nilSlice |});
    reflexivity.
Defined.

(** The group query fails for Alice; the anonymous caller fails the
    precondition; a store that answers with the nil slice and no error
    gives the same value again. *)
Lemma GetRolesByGroup_results_witness :
  retval (GetRolesByGroup (env [] (Some [3%Z], Some "query failed"))
                          (asAlice pmPrivate) p7) = Done nilSlice /\
  retval (GetRolesByGroup (env [] (Some [3%Z], Some "query failed"))
                          (anonymous pmPrivate) p7) = Done nilSlice /\
  retval (GetRolesByGroup (env [] (emptySlice, None))
                          (asAlice pmPrivate) p7) = Done emptySlice.
Proof.
  split; [| split].
  - destruct (GetRolesByGroup_results
                (env [] (Some [3%Z], Some "query failed"))
                (asAlice pmPrivate) p7) as (_ & Query).
    apply (Query alice library); try reflexivity; discriminate.
  - destruct (GetRolesByGroup_results
                (env [] (Some [3%Z], Some "query failed"))
                (anonymous pmPrivate) p7) as (Pre & _).
    apply Pre. right. right. left. reflexivity.
  - destruct (GetRolesByGroup_results
                (env [] (emptySlice, None))
                (asAlice pmPrivate) p7) as (_ & Query).
    apply (Query alice library); try reflexivity; discriminate.
Defined.

(** C9, as stated, fails: the result of a failed group query (Alice, whose
    query is answered with an error) is the result of a precondition
    failure (no principal, no query made). *)
Lemma group_query_failure_looks_like_no_principal :
  existsb failedCall
    (trace (GetRolesByGroup (env [] (Some [3%Z], Some "query failed"))
                            (asAlice pmPrivate) p7)) = true /\
  existsb groupPathCall
    (trace (GetRolesByGroup (env [] (Some [3%Z], Some "query failed"))
                            (anonymous pmPrivate) p7)) = false /\
  retval (GetRolesByGroup (env [] (Some [3%Z], Some "query failed"))
                          (asAlice pmPrivate) p7)
  = retval (GetRolesByGroup (env [] (Some [3%Z], Some "query failed"))
                            (anonymous pmPrivate) p7).
Proof. repeat split. Qed.

Lemma GetMyProjects_unguarded_witness :
  IsAuthenticated (anonymous pmPrivate) = false /\
  GetMyProjects GC (anonymous pmPrivate) = (Panic, []) /\
  retval (GetMyProjects GC (asAlice pmPrivate))
  = Done (Some [library], None) /\
  retval (GetMyProjects GC (asAlice pmDown))
  = Done (nilSlice, Some "connection refused").
Proof.
  split; [reflexivity |].
  split; [| split].
  - apply (GetMyProjects_unguarded GC (anonymous pmPrivate)). reflexivity.
  - destruct (GetMyProjects_unguarded GC (asAlice pmPrivate)) as (_ & Auth).
    destruct (Auth alice eq_refl) as (_ & _ & Listed).
    apply (Listed {| Projects := Some [library] |}). reflexivity.
  - destruct (GetMyProjects_unguarded GC (asAlice pmDown)) as (_ & Auth).
    destruct (Auth alice eq_refl) as (_ & Failed & _).
    apply Failed. reflexivity.
Defined.

(** ** The further properties at work on the sample stores *)

Lemma permissions_ordered_witness :
  retval (HasAllPerm (env ["MDRWS"] (emptySlice, None)) (asAlice pmPrivate) p7)
  = Done true /\
  retval (HasWritePerm (env ["MDRWS"] (emptySlice, None))
                       (asAlice pmPrivate) p7) = Done true /\
  retval (HasReadPerm (env ["MDRWS"] (emptySlice, None))
                      (asAlice pmPrivate) p7) = Done true.
Proof.
  destruct (permissions_ordered (env ["MDRWS"] (emptySlice, None))
                                (asAlice pmPrivate) p7) as (AW & WR).
  split; [reflexivity |].
  split; [apply AW; reflexivity |].
  apply WR; [apply AW |]; reflexivity.
Defined.

(** Alice is a developer through her group. *)
Lemma write_and_all_characterised_witness :
  retval (HasWritePerm (env [] (Some [2%Z], None)) (asAlice pmPrivate) p7)
  = Done true.
Proof.
  apply (write_and_all_characterised (env [] (Some [2%Z], None))
                                     (asAlice pmPrivate) p7).
  right. split; [reflexivity |].
  exists (Some [2%Z]). split; [reflexivity |].
  right. simpl. now left.
Defined.

Lemma read_characterised_witness :
  retval (HasReadPerm (env ["RS"] (emptySlice, None)) (asAlice pmPrivate) p7)
  = Done true.
Proof.
  apply (read_characterised (env ["RS"] (emptySlice, None))
                            (asAlice pmPrivate) p7).
  split; [reflexivity |]. right. right. split; [reflexivity |].
  exists (Some [3%Z]). split; [reflexivity |]. unfold len. simpl. lia.
Defined.

Lemma anonymous_read_is_public_flag_witness :
  IsAuthenticated (anonymous pmPrivate) = false /\
  retval (HasReadPerm (env ["MDRWS"] (Some [1%Z], None))
                      (anonymous pmPrivate) p7) = Done false /\
  retval (HasReadPerm (env ["MDRWS"] (Some [1%Z], None))
                      (anonymous pmPublic) p7) = Done true.
Proof.
  split; [reflexivity |]. split.
  - apply (anonymous_read_is_public_flag
             (env ["MDRWS"] (Some [1%Z], None)) (anonymous pmPrivate) p7).
    reflexivity.
  - apply (anonymous_read_is_public_flag
             (env ["MDRWS"] (Some [1%Z], None)) (anonymous pmPublic) p7).
    reflexivity.
Defined.

(** Making project 7 public changes nothing to what Alice may write. *)
Lemma write_and_all_ignore_public_flag_witness :
  HasWritePerm (env ["RS"] (emptySlice, None))
               (NewSecurityContext (Some alice) pmPublic) p7
  = HasWritePerm (env ["RS"] (emptySlice, None)) (asAlice pmPrivate) p7 /\
  HasAllPerm (env ["RS"] (emptySlice, None))
             (NewSecurityContext (Some alice) pmPublic) p7
  = HasAllPerm (env ["RS"] (emptySlice, None)) (asAlice pmPrivate) p7.
Proof.
  destruct (write_and_all_ignore_public_flag
              (env ["RS"] (emptySlice, None)) (asAlice pmPrivate) p7)
    as (_ & _ & Same).
  apply (Same pmPublic). reflexivity.
Defined.

(** A principal who claims Alice's name and groups under another user id
    and with the admin flag resolves to Alice's roles. *)
Lemma roles_depend_on_name_and_groups_witness :
  GetProjectRoles (env ["RWS"] (emptySlice, None))
    (NewSecurityContext (Some alice) pmPrivate) p7
  = GetProjectRoles (env ["RWS"] (emptySlice, None))
      (NewSecurityContext
         (Some {| UserID := 99; Username := "alice"; HasAdminRole := true;
                  GroupList := Some ["cn=dev,dc=example"] |})
         pmPrivate) p7.
Proof.
  apply (roles_depend_on_name_and_groups
           (env ["RWS"] (emptySlice, None)) alice
           {| UserID := 99; Username := "alice"; HasAdminRole := true;
              GroupList := Some ["cn=dev,dc=example"] |}
           pmPrivate p7); reflexivity.
Defined.

Lemma logs_only_on_failure_witness :
  existsb isLog
    (trace (HasReadPerm (env [] (emptySlice, None)) (asAlice pmDown) p7))
  = true /\
  existsb failedCall
    (trace (HasReadPerm (env [] (emptySlice, None)) (asAlice pmDown) p7))
  = true.
Proof.
  destruct (logs_only_on_failure (env [] (emptySlice, None))
                                 (asAlice pmDown) p7)
    as (_ & _ & (_ & Read) & _).
  split; [reflexivity | apply Read; reflexivity].
Defined.

(** The administrator has no group: the group stores are left alone. *)
Lemma group_store_needs_groups_witness :
  len (GroupList root) = 0%nat /\
  existsb groupPathCall
    (trace (GetProjectRoles (env [] (Some [1%Z], None))
                            (asRoot pmPrivate) p7)) = false.
Proof.
  split; [reflexivity |].
  apply (group_store_needs_groups (env [] (Some [1%Z], None))
                                  (asRoot pmPrivate) p7).
  right. exists root. split; reflexivity.
Defined.

Lemma role_resolution_fails_closed_witness :
  exists roles,
    retval (GetProjectRoles (env ["MDRWS"] (Some [1%Z], None))
                            (asAlice pmDown) p7) = Done roles /\
    len roles = 0%nat.
Proof.
  apply (role_resolution_fails_closed (env ["MDRWS"] (Some [1%Z], None))
                                      (asAlice pmDown) p7).
  reflexivity.
Defined.

Lemma accessors_guarded_witness :
  IsSysAdmin (asRoot pmPrivate) = true /\
  IsAuthenticated (asRoot pmPrivate) = true.
Proof.
  split; [reflexivity |].
  destruct (accessors_guarded (asRoot pmPrivate)) as (Admin & _).
  apply Admin. reflexivity.
Defined.

(** Alice's group maps to a role number that is none of the three
    constants: it is returned, and it opens the project for reading. *)
Lemma group_roles_pass_unfiltered_witness :
  retval (GetProjectRoles (env ["OWNER"] (Some [4%Z], None))
                          (asAlice pmPrivate) p7) = Done (Some [4%Z]) /\
  retval (HasWritePerm (env ["OWNER"] (Some [4%Z], None))
                       (asAlice pmPrivate) p7) = Done false /\
  retval (HasAllPerm (env ["OWNER"] (Some [4%Z], None))
                     (asAlice pmPrivate) p7) = Done false /\
  retval (HasReadPerm (env ["OWNER"] (Some [4%Z], None))
                      (asAlice pmPrivate) p7) = Done true.
Proof.
  destruct (group_roles_pass_unfiltered
              (env ["OWNER"] (Some [4%Z], None)) (asAlice pmPrivate) p7
              (u := alice) (roleList := Some [mkRole "OWNER"])
              (groupRoles := Some [4%Z])
              eq_refl eq_refl eq_refl eq_refl eq_refl)
    as (Roles & Perms).
  - intros role [<- | []]. reflexivity.
  - discriminate.
  - reflexivity.
  - destruct (Perms eq_refl) as (W & A & R).
    split; [exact Roles |]. split; [exact W |]. split; [exact A |].
    apply R. reflexivity.
Defined.

Lemma direct_codes_decide_witness :
  retval (HasWritePerm (env ["RS"; "RWS"] (emptySlice, None))
                       (asAlice pmPrivate) p7) = Done true.
Proof.
  destruct (@direct_codes_decide UG GC
              (env ["RS"; "RWS"] (emptySlice, None)) (asAlice pmPrivate) p7
              alice
              {| UserID := 5%Z; Username := "alice"; HasAdminRole := false;
                 GroupList := nilSlice |}
              library (Some [mkRole "RS"; mkRole "RWS"]))
    as (Write & _).
  - unfold RolesDistinct. simpl. repeat split; discriminate.
  - reflexivity.
  - reflexivity.
  - reflexivity.
  - reflexivity.
  - reflexivity.
  - reflexivity.
  - exists (mkRole "RS"). split; [now left | reflexivity].
  - apply Write. exists (mkRole "RWS").
    split; [right; now left | now right].
Defined.

(** Alice's rows on project 7 are "RS", an unknown "ADMIN" and "MDRWS": she
    resolves to Guest and ProjectAdmin.  With the row "ADMIN" alone she
    resolves to what her group gives. *)
Lemma role_code_mapping_witness :
  retval (GetProjectRoles (env ["RS"; "ADMIN"; "MDRWS"] (Some [2%Z], None))
                          (asAlice pmPrivate) p7) = Done (Some [3%Z; 1%Z]) /\
  retval (GetProjectRoles (env ["ADMIN"] (Some [2%Z], None))
                          (asAlice pmPrivate) p7)
  = retval (GetRolesByGroup (env ["ADMIN"] (Some [2%Z], None))
                            (asAlice pmPrivate) p7).
Proof.
  split.
  - destruct (@role_code_mapping UG GC
                (env ["RS"; "ADMIN"; "MDRWS"] (Some [2%Z], None))
                (asAlice pmPrivate) p7 alice
                {| UserID := 5%Z; Username := "alice"; HasAdminRole := false;
                   GroupList := nilSlice |}
                library
                (Some [mkRole "RS"; mkRole "ADMIN"; mkRole "MDRWS"])
                eq_refl eq_refl eq_refl eq_refl eq_refl)
      as (_ & Mapped & _).
    destruct Mapped as (roles & Hret & Hmap & _).
    + exists (mkRole "RS"). split; [now left | now right; right].
    + rewrite Hret, Hmap. reflexivity.
  - destruct (@role_code_mapping UG GC
                (env ["ADMIN"] (Some [2%Z], None))
                (asAlice pmPrivate) p7 alice
                {| UserID := 5%Z; Username := "alice"; HasAdminRole := false;
                   GroupList := nilSlice |}
                library (Some [mkRole "ADMIN"])
                eq_refl eq_refl eq_refl eq_refl eq_refl)
      as (_ & _ & Unmapped).
    apply Unmapped. intros role [<- | []].
    repeat split; discriminate.
Defined.
